(** * A shallow embedding of the 3D mesh platform's scene store and lighting rig

    The development follows the two source files:
    - [src/lightingSystem.jsx]: the room and furniture lighting resolvers;
    - [src/App.jsx]: the zustand store, the room-material brightness effect of
      [FurnitureModel], and the upload / save handlers of [App].

    JavaScript numbers are IEEE 754 binary64 values, which is what Rocq's
    primitive floats are, so every arithmetic expression of the source is
    transcribed operator by operator. *)

From Stdlib Require Import Floats.
From stdpp Require Import base option list strings gmap.

Set Warnings "-inexact-float".
Local Open Scope float_scope.

(** ** JavaScript values *)

Module JS.

(** Numbers that [ToBoolean] maps to [false]: [+0], [-0] and [NaN]. *)
Definition falsy_number (x : float) : bool := is_zero x || is_nan x.

(** [x || d] where [x] is a number or [undefined] ([None]). *)
Definition or_number (x : option float) (d : float) : float :=
  match x with
  | Some v => if falsy_number v then d else v
  | None => d
  end.

(** [x || d] where [x] is a string or [undefined]: the empty string is falsy. *)
Definition or_string (x : option string) (d : string) : string :=
  match x with
  | Some v => if String.eqb v EmptyString then d else v
  | None => d
  end.

(** [x || d] where [x] is an array or [undefined]: every array is truthy. *)
Definition or_array {A : Type} (x : option (list A)) (d : list A) : list A :=
  match x with
  | Some v => v
  | None => d
  end.

Definition is_neg_zero (x : float) : bool := is_zero x && get_sign x.
Definition is_pos_zero (x : float) : bool := is_zero x && negb (get_sign x).

(** One iteration of the loop of [Math.min] (ECMAScript 21.3.2.25), once the
    arguments are known not to be [NaN]. *)
Definition min_step (lowest number : float) : float :=
  if is_neg_zero number && is_pos_zero lowest then neg_zero
  else if number <? lowest then number
  else lowest.

Definition Math_min (x y : float) : float :=
  if is_nan x || is_nan y then nan
  else min_step (min_step infinity x) y.

(** One iteration of the loop of [Math.max] (ECMAScript 21.3.2.24). *)
Definition max_step (highest number : float) : float :=
  if is_pos_zero number && is_neg_zero highest then zero
  else if highest <? number then number
  else highest.

Definition Math_max (x y : float) : float :=
  if is_nan x || is_nan y then nan
  else max_step (max_step neg_infinity x) y.

(** [s.endsWith(suffix)] *)
Definition endsWith (s suffix : string) : bool :=
  let n := String.length s in
  let m := String.length suffix in
  if (m <=? n)%nat then String.eqb (String.substring (n - m) m s) suffix else false.

(** What reading a property of an object literal can produce: [undefined],
    [null], a record that the literal holds, or a member that the literal
    inherits from [Object.prototype] (a function, or the prototype object
    itself for [__proto__]). *)
Inductive value (A : Type) : Type :=
| undefined
| null
| object (a : A)
| inherited (key : string).
Arguments undefined {A}.
Arguments null {A}.
Arguments object {A} a.
Arguments inherited {A} key.

(** The property names of [Object.prototype] (ECMAScript 20.1.3 and B.2.2).
    An object literal [{ ... }] has [Object.prototype] as its prototype, so
    reading one of these names from it finds the inherited member. *)
Definition Object_prototype : list string :=
  [ "constructor"; "hasOwnProperty"; "isPrototypeOf"; "propertyIsEnumerable";
    "toLocaleString"; "toString"; "valueOf"; "__proto__";
    "__defineGetter__"; "__defineSetter__"; "__lookupGetter__";
    "__lookupSetter__" ].

(** [obj[key]] for an object literal whose own properties are [own]: own
    properties first, then the prototype chain, else [undefined]. *)
Definition get {A : Type} (own : gmap string (value A)) (key : string) : value A :=
  match own !! key with
  | Some v => v
  | None =>
      if bool_decide (key ∈ Object_prototype) then inherited key else undefined
  end.

(** [ToBoolean]: objects and functions are truthy. *)
Definition truthy {A : Type} (v : value A) : bool :=
  match v with
  | undefined | null => false
  | object _ | inherited _ => true
  end.

(** [a || b] *)
Definition or {A : Type} (a b : value A) : value A :=
  if truthy a then a else b.

End JS.

(** ** [lightingSystem.jsx] *)

Definition vec3 : Type := float * float * float.

Record RoomBounds : Type := mkRoomBounds {
  minX : float; maxX : float;
  minY : float; maxY : float;
  minZ : float; maxZ : float;
  centerX : float; centerY : float; centerZ : float
}.

Record AmbientLight : Type := mkAmbientLight {
  amb_color : string;
  amb_intensity : float
}.

Record HemisphereLight : Type := mkHemisphereLight {
  hemi_skyColor : string;
  hemi_groundColor : string;
  hemi_intensity : float;
  hemi_position : vec3
}.

Record PointLight : Type := mkPointLight {
  pl_position : vec3;
  pl_color : string;
  pl_intensity : float;
  pl_distance : float;
  pl_decay : float;
  pl_castShadow : bool
}.

Record RoomLightingConfig : Type := mkRoomLightingConfig {
  ambientLight : AmbientLight;
  hemisphereLight : HemisphereLight;
  pointLights : list PointLight
}.

Section RoomRig.

Variable roomBounds : RoomBounds.

(** The locals of [getRoomLightingConfig], in the order of the source. *)
Definition ceilingY : float := maxY roomBounds * 0.9.

Definition cornerMargin : float := 0.8.

Definition corner1X : float :=
  centerX roomBounds + (maxX roomBounds - centerX roomBounds) * cornerMargin.
Definition corner1Z : float :=
  centerZ roomBounds + (maxZ roomBounds - centerZ roomBounds) * cornerMargin.
Definition corner2X : float :=
  centerX roomBounds + (minX roomBounds - centerX roomBounds) * cornerMargin.
Definition corner2Z : float :=
  centerZ roomBounds + (maxZ roomBounds - centerZ roomBounds) * cornerMargin.
Definition corner3X : float :=
  centerX roomBounds + (minX roomBounds - centerX roomBounds) * cornerMargin.
Definition corner3Z : float :=
  centerZ roomBounds + (minZ roomBounds - centerZ roomBounds) * cornerMargin.
Definition corner4X : float :=
  centerX roomBounds + (maxX roomBounds - centerX roomBounds) * cornerMargin.
Definition corner4Z : float :=
  centerZ roomBounds + (minZ roomBounds - centerZ roomBounds) * cornerMargin.

Definition roomSize : float :=
  JS.Math_max (maxX roomBounds - minX roomBounds) (maxZ roomBounds - minZ roomBounds).
Definition lightDistance : float := roomSize * 0.8.

(** A ceiling light: every entry of the table has [decay: 2] and
    [castShadow: true]. *)
Definition ceilingLight (pos : vec3) (color : string) (intensity distance : float)
  : PointLight :=
  mkPointLight pos color intensity distance 2 true.

Definition warm_evening : RoomLightingConfig :=
  {| ambientLight := mkAmbientLight "#fff5e6" 0.3;
     hemisphereLight := mkHemisphereLight "#fff5e6" "#8B7355" 0.4 (0, ceilingY, 0);
     pointLights :=
       [ ceilingLight (corner1X, ceilingY, corner1Z) "#ffdb99" 1.2 lightDistance;
         ceilingLight (corner2X, ceilingY, corner2Z) "#ffdb99" 1.2 lightDistance;
         ceilingLight (corner3X, ceilingY, corner3Z) "#ffdb99" 1.2 lightDistance;
         ceilingLight (corner4X, ceilingY, corner4Z) "#ffdb99" 1.2 lightDistance;
         ceilingLight (centerX roomBounds, ceilingY, centerZ roomBounds)
           "#ffe4b3" 1.5 (lightDistance * 1.2) ] |}.

Definition bright_day : RoomLightingConfig :=
  {| ambientLight := mkAmbientLight "#ffffff" 0.6;
     hemisphereLight := mkHemisphereLight "#87CEEB" "#f0f0f0" 0.7 (0, ceilingY, 0);
     pointLights :=
       [ ceilingLight (corner1X, ceilingY, corner1Z) "#ffffff" 1.8 lightDistance;
         ceilingLight (corner2X, ceilingY, corner2Z) "#ffffff" 1.8 lightDistance;
         ceilingLight (corner3X, ceilingY, corner3Z) "#ffffff" 1.8 lightDistance;
         ceilingLight (corner4X, ceilingY, corner4Z) "#ffffff" 1.8 lightDistance;
         ceilingLight (centerX roomBounds, ceilingY, centerZ roomBounds)
           "#f5f5f5" 2.2 (lightDistance * 1.2) ] |}.

Definition cozy_night : RoomLightingConfig :=
  {| ambientLight := mkAmbientLight "#ffd699" 0.15;
     hemisphereLight := mkHemisphereLight "#ffd699" "#4a3728" 0.2 (0, ceilingY, 0);
     pointLights :=
       [ ceilingLight (corner1X, ceilingY, corner1Z) "#ffb366" 0.8 (lightDistance * 0.7);
         ceilingLight (corner3X, ceilingY, corner3Z) "#ffb366" 0.8 (lightDistance * 0.7);
         ceilingLight (centerX roomBounds, ceilingY - 0.5, centerZ roomBounds)
           "#ffcc80" 1.0 (lightDistance * 0.6) ] |}.

Definition studio_neutral : RoomLightingConfig :=
  {| ambientLight := mkAmbientLight "#ffffff" 0.4;
     hemisphereLight := mkHemisphereLight "#ffffff" "#cccccc" 0.5 (0, ceilingY, 0);
     pointLights :=
       [ ceilingLight (corner1X, ceilingY, corner1Z) "#ffffff" 1.4 lightDistance;
         ceilingLight (corner2X, ceilingY, corner2Z) "#ffffff" 1.4 lightDistance;
         ceilingLight (corner3X, ceilingY, corner3Z) "#ffffff" 1.4 lightDistance;
         ceilingLight (corner4X, ceilingY, corner4Z) "#ffffff" 1.4 lightDistance;
         ceilingLight (centerX roomBounds, ceilingY, centerZ roomBounds)
           "#ffffff" 1.8 (lightDistance * 1.2) ] |}.

Definition sunset : RoomLightingConfig :=
  {| ambientLight := mkAmbientLight "#ffcc99" 0.25;
     hemisphereLight := mkHemisphereLight "#ff9966" "#8B6347" 0.35 (0, ceilingY, 0);
     pointLights :=
       [ ceilingLight (corner1X, ceilingY, corner1Z) "#ff9966" 1.0 lightDistance;
         ceilingLight (corner2X, ceilingY, corner2Z) "#ffaa77" 1.0 lightDistance;
         ceilingLight (corner3X, ceilingY, corner3Z) "#ff9966" 1.0 lightDistance;
         ceilingLight (corner4X, ceilingY, corner4Z) "#ffaa77" 1.0 lightDistance;
         ceilingLight (centerX roomBounds, ceilingY, centerZ roomBounds)
           "#ffbb88" 1.3 (lightDistance * 1.2) ] |}.

(** The object literal [configs] of [getRoomLightingConfig]. *)
Definition room_configs : gmap string (JS.value RoomLightingConfig) :=
  list_to_map
    [ ("off", JS.null);
      ("warm-evening", JS.object warm_evening);
      ("bright-day", JS.object bright_day);
      ("cozy-night", JS.object cozy_night);
      ("studio-neutral", JS.object studio_neutral);
      ("sunset", JS.object sunset) ].

End RoomRig.

(** [getRoomLightingConfig(preset, roomBounds)]; an absent ([null] or
    [undefined]) [roomBounds] is [None]. *)
Definition getRoomLightingConfig (preset : string) (roomBounds : option RoomBounds)
  : JS.value RoomLightingConfig :=
  match roomBounds with
  | None => JS.null
  | Some b => JS.or (JS.get (room_configs b) preset) JS.null
  end.

Record DirectionalLight : Type := mkDirectionalLight {
  dl_color : string;
  dl_position : vec3;
  dl_intensity : float;
  dl_castShadow : bool;
  dl_shadowMapSize : float * float
}.

Record FurnitureLightingConfig : Type := mkFurnitureLightingConfig {
  f_ambientLight : AmbientLight;
  directionalLight : DirectionalLight
}.

Definition furniture_default : FurnitureLightingConfig :=
  {| f_ambientLight := mkAmbientLight "#ffffff" 0.1;
     directionalLight := mkDirectionalLight "#fff1e0" (5, 10, 7) 1.8 true (2048, 2048) |}.

Definition furniture_bright : FurnitureLightingConfig :=
  {| f_ambientLight := mkAmbientLight "#ffffff" 0.3;
     directionalLight := mkDirectionalLight "#ffffff" (5, 10, 7) 2.5 true (2048, 2048) |}.

Definition furniture_soft : FurnitureLightingConfig :=
  {| f_ambientLight := mkAmbientLight "#ffffff" 0.4;
     directionalLight := mkDirectionalLight "#fff5e6" (5, 10, 7) 1.2 true (2048, 2048) |}.

Definition furniture_dramatic : FurnitureLightingConfig :=
  {| f_ambientLight := mkAmbientLight "#ffffff" 0.05;
     directionalLight := mkDirectionalLight "#ffffff" (8, 15, 10) 3.0 true (2048, 2048) |}.

(** The object literal [configs] of [getFurnitureLightingConfig]. *)
Definition furniture_configs : gmap string (JS.value FurnitureLightingConfig) :=
  list_to_map
    [ ("default", JS.object furniture_default);
      ("bright", JS.object furniture_bright);
      ("soft", JS.object furniture_soft);
      ("dramatic", JS.object furniture_dramatic) ].

(** [getFurnitureLightingConfig(preset)] *)
Definition getFurnitureLightingConfig (preset : string) : JS.value FurnitureLightingConfig :=
  JS.or (JS.get furniture_configs preset) (JS.get furniture_configs "default").

(** What a lighting component renders: [null], a fragment of light elements,
    or nothing at all because evaluating its body throws a [TypeError]. *)
Inductive LightElement : Type :=
| ambientLightElement (color : string) (intensity : float)
| hemisphereLightElement (color groundColor : string) (intensity : float)
    (position : vec3)
| pointLightElement (position : vec3) (color : string)
    (intensity distance decay : float) (castShadow : bool)
| directionalLightElement (color : string) (position : vec3) (intensity : float)
    (castShadow : bool) (shadowMapSize : float * float).

Inductive Rendered : Type :=
| renderNull
| renderFragment (elements : list LightElement)
| renderTypeError.

(** [RoomLights({ preset, roomBounds, intensityMultiplier })]. A member
    inherited from [Object.prototype] has no [ambientLight] property, so
    reading [config.ambientLight.color] from it throws. *)
Definition RoomLights (preset : string) (roomBounds : option RoomBounds)
    (intensityMultiplier : float) : Rendered :=
  if String.eqb preset "off" || bool_decide (roomBounds = None) then renderNull
  else
    match getRoomLightingConfig preset roomBounds with
    | JS.undefined | JS.null => renderNull
    | JS.inherited _ => renderTypeError
    | JS.object config =>
        renderFragment
          (ambientLightElement (amb_color (ambientLight config))
             (amb_intensity (ambientLight config) * intensityMultiplier)
           :: hemisphereLightElement (hemi_skyColor (hemisphereLight config))
                (hemi_groundColor (hemisphereLight config))
                (hemi_intensity (hemisphereLight config) * intensityMultiplier)
                (hemi_position (hemisphereLight config))
           :: ((λ light,
                  pointLightElement (pl_position light) (pl_color light)
                    (pl_intensity light * intensityMultiplier)
                    (pl_distance light) (pl_decay light) (pl_castShadow light))
               <$> pointLights config))
    end.

(** [FurnitureLights({ preset, intensityMultiplier })] *)
Definition FurnitureLights (preset : string) (intensityMultiplier : float) : Rendered :=
  match getFurnitureLightingConfig preset with
  | JS.undefined | JS.null | JS.inherited _ => renderTypeError
  | JS.object config =>
      renderFragment
        [ ambientLightElement (amb_color (f_ambientLight config))
            (amb_intensity (f_ambientLight config) * intensityMultiplier);
          directionalLightElement (dl_color (directionalLight config))
            (dl_position (directionalLight config))
            (dl_intensity (directionalLight config) * intensityMultiplier)
            (dl_castShadow (directionalLight config))
            (dl_shadowMapSize (directionalLight config)) ]
  end.

(** The preset identifiers that each table defines. *)
Definition room_preset_ids : list string :=
  [ "off"; "warm-evening"; "bright-day"; "cozy-night"; "studio-neutral"; "sunset" ].

Definition furniture_preset_ids : list string :=
  [ "default"; "bright"; "soft"; "dramatic" ].

(** ** [App.jsx]: the room-material brightness effect of [FurnitureModel] *)

(** A [THREE.Color]. *)
Record Color : Type := mkColor {
  col_r : float;
  col_g : float;
  col_b : float
}.

(** The three entries that the effect keeps in [material.userData]. *)
Record Baseline : Type := mkBaseline {
  originalColor : Color;
  originalEmissive : option Color;
  originalEmissiveIntensity : float
}.

(** A material. [emissive] and [emissiveIntensity] are [None] for a material
    type that has no such property; [userData = None] stands for a [userData]
    object in which [originalColor] is not set yet. *)
Record Material : Type := mkMaterial {
  color : Color;
  emissive : option Color;
  emissiveIntensity : option float;
  userData : option Baseline;
  needsUpdate : bool
}.

(** The body of [if (!child.material.userData.originalColor) { ... }]:
    [clone()] makes copies, so the baseline shares nothing with the live
    colors. *)
Definition captureBaseline (m : Material) : Baseline :=
  {| originalColor := color m;
     originalEmissive := emissive m;
     originalEmissiveIntensity := JS.or_number (emissiveIntensity m) 0 |}.

(** The body of [if (child.material) { ... }] for one material. *)
Definition adjustMaterial (roomMaterialBrightness : float) (m : Material) : Material :=
  let ud :=
    match userData m with
    | Some ud => ud
    | None => captureBaseline m
    end in
  let originalColor := originalColor ud in
  let color' :=
    {| col_r := JS.Math_min (col_r originalColor * roomMaterialBrightness) 1;
       col_g := JS.Math_min (col_g originalColor * roomMaterialBrightness) 1;
       col_b := JS.Math_min (col_b originalColor * roomMaterialBrightness) 1 |} in
  match emissive m with
  | Some e =>
      let emissive' :=
        match originalEmissive ud with
        | Some originalEmissive => originalEmissive
        | None => e
        end in
      let glowIntensity := (roomMaterialBrightness - 1) * 0.5 in
      {| color := color';
         emissive := Some emissive';
         emissiveIntensity := Some (originalEmissiveIntensity ud + glowIntensity);
         userData := Some ud;
         needsUpdate := true |}
  | None =>
      {| color := color';
         emissive := None;
         emissiveIntensity := emissiveIntensity m;
         userData := Some ud;
         needsUpdate := true |}
  end.

(** A node of the loaded scene graph. Materials are objects that several
    meshes may share, so a node holds a reference into a store of materials. *)
Record Object3D : Type := mkObject3D {
  isMesh : bool;
  castShadow : bool;
  receiveShadow : bool;
  material : option nat
}.

(** The callback that the effect passes to [scene.traverse]. *)
Definition visitChild (isRoom : bool) (roomMaterialBrightness : float)
    (child : Object3D) (materials : list Material) : Object3D * list Material :=
  if isMesh child then
    if isRoom then
      ({| isMesh := isMesh child; castShadow := false; receiveShadow := true;
          material := material child |},
       match material child with
       | Some ref => alter (adjustMaterial roomMaterialBrightness) ref materials
       | None => materials
       end)
    else
      ({| isMesh := isMesh child; castShadow := true; receiveShadow := true;
          material := material child |},
       materials)
  else (child, materials).

(** [scene.traverse(callback)]; the scene graph is given by its nodes in the
    order in which [traverse] visits them. *)
Fixpoint traverse (isRoom : bool) (roomMaterialBrightness : float)
    (scene : list Object3D) (materials : list Material)
  : list Object3D * list Material :=
  match scene with
  | [] => ([], materials)
  | child :: rest =>
      let '(child', materials') :=
        visitChild isRoom roomMaterialBrightness child materials in
      let '(rest', materials'') :=
        traverse isRoom roomMaterialBrightness rest materials' in
      (child' :: rest', materials'')
  end.

(** The material references that a room traversal touches. *)
Definition meshMaterials (scene : list Object3D) : list nat :=
  omap (λ child, if isMesh child then material child else None) scene.

(** ASCII [toLowerCase]; no other character lower-cases to a letter of
    ["room.glb"]. *)
Definition lowerAscii (c : Ascii.ascii) : Ascii.ascii :=
  let n := Ascii.nat_of_ascii c in
  if ((65 <=? n) && (n <=? 90))%nat then Ascii.ascii_of_nat (n + 32) else c.

Fixpoint toLowerCase (s : string) : string :=
  match s with
  | EmptyString => EmptyString
  | String c rest => String (lowerAscii c) (toLowerCase rest)
  end.

(** [name && name.toLowerCase() === 'room.glb'] *)
Definition isRoom (name : string) : bool :=
  negb (String.eqb name EmptyString) && String.eqb (toLowerCase name) "room.glb".

(** ** [App.jsx]: the zustand store *)

Record LibraryItem : Type := mkLibraryItem {
  lib_name : string;
  lib_url : string
}.

Record SceneItem : Type := mkSceneItem {
  item_id : string;
  item_name : string;
  item_url : string;
  position : vec3;
  rotation : vec3;
  scale : vec3
}.

Record State : Type := mkState {
  items : list SceneItem;
  library : list LibraryItem;
  environment : string;
  roomLightingPreset : string;
  furnitureLightingPreset : string;
  roomBounds : option RoomBounds;
  roomLightIntensity : float;
  furnitureLightIntensity : float;
  roomMaterialBrightness : float;
  selectedItem : option string;
  transformMode : string
}.

(** The state that [create] starts from. *)
Definition initialState : State :=
  {| items := [];
     library := [];
     environment := "studio";
     roomLightingPreset := "warm-evening";
     furnitureLightingPreset := "default";
     roomBounds := None;
     roomLightIntensity := 1.0;
     furnitureLightIntensity := 1.0;
     roomMaterialBrightness := 1.0;
     selectedItem := None;
     transformMode := "translate" |}.

(** One [key: value] entry of the partial object handed to [set]. *)
Inductive Entry : Type :=
| Items (v : list SceneItem)
| Library (v : list LibraryItem)
| Environment (v : string)
| RoomLightingPreset (v : string)
| FurnitureLightingPreset (v : string)
| RoomBounds_ (v : option RoomBounds)
| RoomLightIntensity (v : float)
| FurnitureLightIntensity (v : float)
| RoomMaterialBrightness (v : float)
| SelectedItem (v : option string)
| TransformMode (v : string).

Definition assign (s : State) (e : Entry) : State :=
  match e with
  | Items v =>
      mkState v (library s) (environment s) (roomLightingPreset s)
        (furnitureLightingPreset s) (roomBounds s) (roomLightIntensity s)
        (furnitureLightIntensity s) (roomMaterialBrightness s) (selectedItem s)
        (transformMode s)
  | Library v =>
      mkState (items s) v (environment s) (roomLightingPreset s)
        (furnitureLightingPreset s) (roomBounds s) (roomLightIntensity s)
        (furnitureLightIntensity s) (roomMaterialBrightness s) (selectedItem s)
        (transformMode s)
  | Environment v =>
      mkState (items s) (library s) v (roomLightingPreset s)
        (furnitureLightingPreset s) (roomBounds s) (roomLightIntensity s)
        (furnitureLightIntensity s) (roomMaterialBrightness s) (selectedItem s)
        (transformMode s)
  | RoomLightingPreset v =>
      mkState (items s) (library s) (environment s) v
        (furnitureLightingPreset s) (roomBounds s) (roomLightIntensity s)
        (furnitureLightIntensity s) (roomMaterialBrightness s) (selectedItem s)
        (transformMode s)
  | FurnitureLightingPreset v =>
      mkState (items s) (library s) (environment s) (roomLightingPreset s)
        v (roomBounds s) (roomLightIntensity s)
        (furnitureLightIntensity s) (roomMaterialBrightness s) (selectedItem s)
        (transformMode s)
  | RoomBounds_ v =>
      mkState (items s) (library s) (environment s) (roomLightingPreset s)
        (furnitureLightingPreset s) v (roomLightIntensity s)
        (furnitureLightIntensity s) (roomMaterialBrightness s) (selectedItem s)
        (transformMode s)
  | RoomLightIntensity v =>
      mkState (items s) (library s) (environment s) (roomLightingPreset s)
        (furnitureLightingPreset s) (roomBounds s) v
        (furnitureLightIntensity s) (roomMaterialBrightness s) (selectedItem s)
        (transformMode s)
  | FurnitureLightIntensity v =>
      mkState (items s) (library s) (environment s) (roomLightingPreset s)
        (furnitureLightingPreset s) (roomBounds s) (roomLightIntensity s)
        v (roomMaterialBrightness s) (selectedItem s)
        (transformMode s)
  | RoomMaterialBrightness v =>
      mkState (items s) (library s) (environment s) (roomLightingPreset s)
        (furnitureLightingPreset s) (roomBounds s) (roomLightIntensity s)
        (furnitureLightIntensity s) v (selectedItem s)
        (transformMode s)
  | SelectedItem v =>
      mkState (items s) (library s) (environment s) (roomLightingPreset s)
        (furnitureLightingPreset s) (roomBounds s) (roomLightIntensity s)
        (furnitureLightIntensity s) (roomMaterialBrightness s) v
        (transformMode s)
  | TransformMode v =>
      mkState (items s) (library s) (environment s) (roomLightingPreset s)
        (furnitureLightingPreset s) (roomBounds s) (roomLightIntensity s)
        (furnitureLightIntensity s) (roomMaterialBrightness s) (selectedItem s)
        v
  end.

(** zustand's [set(partial)] and [set((state) => partial)]: the entries of the
    partial object, computed from the current state, are merged into it. *)
Definition set_ (partial : State → list Entry) (state : State) : State :=
  foldl assign state (partial state).

Definition setEnvironment (env : string) : State → State :=
  set_ (λ _, [Environment env]).
Definition setRoomLightingPreset (preset : string) : State → State :=
  set_ (λ _, [RoomLightingPreset preset]).
Definition setFurnitureLightingPreset (preset : string) : State → State :=
  set_ (λ _, [FurnitureLightingPreset preset]).
Definition setRoomBounds (bounds : option RoomBounds) : State → State :=
  set_ (λ _, [RoomBounds_ bounds]).
Definition setRoomLightIntensity (intensity : float) : State → State :=
  set_ (λ _, [RoomLightIntensity intensity]).
Definition setFurnitureLightIntensity (intensity : float) : State → State :=
  set_ (λ _, [FurnitureLightIntensity intensity]).
Definition setRoomMaterialBrightness (brightness : float) : State → State :=
  set_ (λ _, [RoomMaterialBrightness brightness]).

Definition addLibraryItem (newItem : LibraryItem) : State → State :=
  set_ (λ state, [Library (library state ++ [newItem])]).

Definition removeLibraryItem (url : string) : State → State :=
  set_ (λ state,
    [ Library (filter (λ item, lib_url item ≠ url) (library state));
      Items (filter (λ item, item_url item ≠ url) (items state)) ]).

Definition addItem (item : SceneItem) : State → State :=
  set_ (λ state, [Items (items state ++ [item])]).

(** The [newProps] of [updateItem]: the keys that the caller passes. *)
Record ItemProps : Type := mkItemProps {
  new_position : option vec3;
  new_rotation : option vec3;
  new_scale : option vec3
}.

(** [{ ...item, ...newProps }] *)
Definition mergeProps (item : SceneItem) (newProps : ItemProps) : SceneItem :=
  {| item_id := item_id item;
     item_name := item_name item;
     item_url := item_url item;
     position := default (position item) (new_position newProps);
     rotation := default (rotation item) (new_rotation newProps);
     scale := default (scale item) (new_scale newProps) |}.

Definition updateItem (id : string) (newProps : ItemProps) : State → State :=
  set_ (λ state,
    [ Items ((λ item, if decide (item_id item = id) then mergeProps item newProps
                      else item) <$> items state) ]).

Definition deleteItem (id : string) : State → State :=
  set_ (λ state,
    [ Items (filter (λ item, item_id item ≠ id) (items state));
      SelectedItem None ]).

(** A scene document as [loadScene] reads it: a key that is missing reads as
    [undefined], here [None]. *)
Record SceneDocument : Type := mkSceneDocument {
  doc_items : option (list SceneItem);
  doc_library : option (list LibraryItem);
  doc_environment : option string;
  doc_roomLightingPreset : option string;
  doc_furnitureLightingPreset : option string;
  doc_roomLightIntensity : option float;
  doc_furnitureLightIntensity : option float;
  doc_roomMaterialBrightness : option float
}.

Definition loadScene (sceneData : SceneDocument) : State → State :=
  set_ (λ _,
    [ Items (JS.or_array (doc_items sceneData) []);
      Library (JS.or_array (doc_library sceneData) []);
      Environment (JS.or_string (doc_environment sceneData) "studio");
      RoomLightingPreset (JS.or_string (doc_roomLightingPreset sceneData) "warm-evening");
      FurnitureLightingPreset
        (JS.or_string (doc_furnitureLightingPreset sceneData) "default");
      RoomLightIntensity (JS.or_number (doc_roomLightIntensity sceneData) 1.0);
      FurnitureLightIntensity (JS.or_number (doc_furnitureLightIntensity sceneData) 1.0);
      RoomMaterialBrightness (JS.or_number (doc_roomMaterialBrightness sceneData) 1.0);
      SelectedItem None ]).

Definition setSelectedItem (id : option string) : State → State :=
  set_ (λ _, [SelectedItem id]).
Definition setTransformMode (mode : string) : State → State :=
  set_ (λ _, [TransformMode mode]).

(** ** [App.jsx]: the handlers around the store *)

(** [handleAddItemToScene] of [LibraryPanel]; [uuid] is what [uuidv4()]
    returns. *)
Definition handleAddItemToScene (libraryItem : LibraryItem) (uuid : string)
  : State → State :=
  let newItem :=
    {| item_id := uuid;
       item_name := lib_name libraryItem;
       item_url := lib_url libraryItem;
       position := (0, 1, 0);
       rotation := (0, 0, 0);
       scale := (1, 1, 1) |} in
  addItem newItem.

(** The object [sceneData] that [handleSave] builds from the store. *)
Definition sceneData (state : State) : SceneDocument :=
  {| doc_library := Some (library state);
     doc_items := Some (items state);
     doc_environment := Some (environment state);
     doc_roomLightingPreset := Some (roomLightingPreset state);
     doc_furnitureLightingPreset := Some (furnitureLightingPreset state);
     doc_roomLightIntensity := Some (roomLightIntensity state);
     doc_furnitureLightIntensity := Some (furnitureLightIntensity state);
     doc_roomMaterialBrightness := Some (roomMaterialBrightness state) |}.

(** The document [{}]. *)
Definition emptyDocument : SceneDocument :=
  mkSceneDocument None None None None None None None None.

(** A [File] of the upload input, with the data URL that reading it yields. *)
Record File : Type := mkFile {
  file_name : string;
  file_dataURL : string
}.

(** What [handleFileChange] does with the picked file: it alerts, or it starts
    a [FileReader] whose [onload] will call [addLibraryItem] with the item. *)
Inductive UploadOutcome : Type :=
| AlertDuplicate (name : string)
| AlertNotGlb
| ReadThenAdd (newItem : LibraryItem).

(** [handleFileChange]; [library] is the store's library as the handler sees
    it, [file] is [event.target.files[0]]. *)
Definition handleFileChange (library : list LibraryItem) (file : option File)
  : UploadOutcome :=
  match file with
  | Some file =>
      if JS.endsWith (file_name file) ".glb" then
        let isDuplicate :=
          existsb (λ item, String.eqb (lib_name item) (file_name file)) library in
        if isDuplicate then AlertDuplicate (file_name file)
        else ReadThenAdd {| lib_name := file_name file; lib_url := file_dataURL file |}
      else AlertNotGlb
  | None => AlertNotGlb
  end.

(** The store once the outcome has run its course: [reader.onload] fires and
    adds the item, or nothing happens to the store. *)
Definition settle (outcome : UploadOutcome) : State → State :=
  match outcome with
  | ReadThenAdd newItem => addLibraryItem newItem
  | AlertDuplicate _ | AlertNotGlb => λ state, state
  end.

(** ** Vocabulary of the properties and sample inputs *)

(** What the description of the rig says about a light placed towards a
    corner: 80% of the way from the center to an X extreme and to a Z extreme,
    at 90% of the room height, with the room-sized falloff distance, possibly
    scaled by the preset's factor for reduced footprints. *)
Definition corner_light (b : RoomBounds) (l : PointLight) : Prop :=
  ∃ extremeX extremeZ,
    extremeX ∈ [minX b; maxX b] ∧ extremeZ ∈ [minZ b; maxZ b] ∧
    pl_position l =
      (centerX b + (extremeX - centerX b) * 0.8,
       maxY b * 0.9,
       centerZ b + (extremeZ - centerZ b) * 0.8) ∧
    (pl_distance l = JS.Math_max (maxX b - minX b) (maxZ b - minZ b) * 0.8 ∨
     pl_distance l = JS.Math_max (maxX b - minX b) (maxZ b - minZ b) * 0.8 * 0.7) ∧
    pl_decay l = 2.

(** The light above the center of the room: at ceiling height with 1.2 times
    the falloff distance, or half a unit lower with 0.6 times the distance. *)
Definition center_light (b : RoomBounds) (l : PointLight) : Prop :=
  (pl_position l = (centerX b, maxY b * 0.9, centerZ b) ∧
   pl_distance l = JS.Math_max (maxX b - minX b) (maxZ b - minZ b) * 0.8 * 1.2
   ∨
   pl_position l = (centerX b, maxY b * 0.9 - 0.5, centerZ b) ∧
   pl_distance l = JS.Math_max (maxX b - minX b) (maxZ b - minZ b) * 0.8 * 0.6) ∧
  pl_decay l = 2.

(** The bounds of the documented scenario. *)
Definition scenarioBounds : RoomBounds :=
  {| minX := -5; maxX := 5; minY := 0; maxY := 4; minZ := -5; maxZ := 5;
     centerX := 0; centerY := 2; centerZ := 0 |}.

(** The emissive intensity that the description of the adjuster states: the
    glow term is clamped at zero. *)
Definition clampedEmissiveIntensity (baseline brightness : float) : float :=
  baseline + JS.Math_max (brightness - 1) 0 * 0.5.

(** The baseline that an adjustment works from: the stored one, or the
    current values on the first encounter. *)
Definition baselineOf (m : Material) : Baseline :=
  default (captureBaseline m) (userData m).

(** A wall material whose baseline the effect has captured already. *)
Definition wallBaseline : Baseline :=
  {| originalColor := mkColor 0.5 0.25 0.75;
     originalEmissive := Some (mkColor 0 0 0);
     originalEmissiveIntensity := 1 |}.

Definition wallMaterial : Material :=
  {| color := mkColor 0.5 0.25 0.75;
     emissive := Some (mkColor 0 0 0);
     emissiveIntensity := Some 1;
     userData := Some wallBaseline;
     needsUpdate := false |}.

(** What the room traversal leaves in a node. *)
Definition roomNode (child : Object3D) : Object3D :=
  if isMesh child then
    {| isMesh := isMesh child; castShadow := false; receiveShadow := true;
       material := material child |}
  else child.

(** The numeric and string knobs that [x || default] reads as present. *)
Definition truthyKnobs (s : State) : Prop :=
  environment s ≠ EmptyString ∧ roomLightingPreset s ≠ EmptyString ∧ furnitureLightingPreset s ≠ EmptyString ∧
  JS.falsy_number (roomLightIntensity s) = false ∧
  JS.falsy_number (furnitureLightIntensity s) = false ∧
  JS.falsy_number (roomMaterialBrightness s) = false.

(** The store after the room-intensity slider is dragged to its minimum. *)
Definition dimmedStore : State := setRoomLightIntensity 0 initialState.

Definition chair : LibraryItem := mkLibraryItem "chair.glb" "data:model/gltf-binary;base64,Y2hhaXI=".

(** A second upload under the name of [chair]. *)
Definition chairAgain : LibraryItem := mkLibraryItem "chair.glb" "data:model/gltf-binary;base64,c3Rvb2w=".

(** The store with [chair] in the library. *)
Definition oneChair : State := addLibraryItem chair initialState.

(** [chair] placed once and selected. *)
Definition showroom : State :=
  setSelectedItem (Some "item-1") (handleAddItemToScene chair "item-1" oneChair).

(** [chair] placed twice, the second placement selected. *)
Definition twoChairs : State :=
  setSelectedItem (Some "item-2")
    (handleAddItemToScene chair "item-2" (handleAddItemToScene chair "item-1" oneChair)).

(** The names of the library, in order. *)
Definition libraryNames (s : State) : list string := lib_name <$> library s.

(** ** [App.jsx]: the panels, the drag handler and the transitions of the UI *)

(** [handleDragEnd] of [FurnitureModel]: the transform of the dragged object
    is written to the item, all three keys at once. *)
Definition handleDragEnd (id : string) (objectPosition objectRotation objectScale : vec3)
  : State → State :=
  updateItem id
    {| new_position := Some objectPosition;
       new_rotation := Some objectRotation;
       new_scale := Some objectScale |}.

(** The item whose properties [InfoPanel] shows:
    [items.find(item => item.id === selectedId)], and no panel when the
    selection is [null] or names no item. *)
Definition InfoPanel (s : State) : option SceneItem :=
  match selectedItem s with
  | Some selectedId =>
      List.find (λ item, String.eqb (item_id item) selectedId) (items s)
  | None => None
  end.

(** [handleDelete] of [InfoPanel]; the button exists only while the panel is
    shown. *)
Definition handleDelete (s : State) : State :=
  match InfoPanel s, selectedItem s with
  | Some _, Some selectedId => deleteItem selectedId s
  | _, _ => s
  end.

(** One event of the user interface, as the handlers of [App.jsx] run it on
    the store. Loading a scene file is left out: a document comes from
    outside. The library panel offers [Add] and [X] for the assets of the
    library only, and a finished upload is settled on the library it was
    checked against. *)
Inductive ui_step : State → State → Prop :=
| ui_upload s file :
    ui_step s (settle (handleFileChange (library s) file) s)
| ui_add_to_scene s libItem uuid :
    libItem ∈ library s → ui_step s (handleAddItemToScene libItem uuid s)
| ui_remove_from_library s libItem :
    libItem ∈ library s → ui_step s (removeLibraryItem (lib_url libItem) s)
| ui_drag_end s id p r sc :
    ui_step s (handleDragEnd id p r sc s)
| ui_delete s :
    ui_step s (handleDelete s)
| ui_select s id :
    ui_step s (setSelectedItem id s)
| ui_transform_mode s mode :
    ui_step s (setTransformMode mode s)
| ui_environment s env :
    ui_step s (setEnvironment env s)
| ui_room_preset s preset :
    ui_step s (setRoomLightingPreset preset s)
| ui_furniture_preset s preset :
    ui_step s (setFurnitureLightingPreset preset s)
| ui_room_intensity s intensity :
    ui_step s (setRoomLightIntensity intensity s)
| ui_furniture_intensity s intensity :
    ui_step s (setFurnitureLightIntensity intensity s)
| ui_brightness s brightness :
    ui_step s (setRoomMaterialBrightness brightness s)
| ui_room_bounds s bounds :
    ui_step s (setRoomBounds bounds s).

(** Every scene item references an asset of the library. *)
Definition orphanFree (s : State) : Prop :=
  ∀ item, item ∈ items s → item_url item ∈ lib_url <$> library s.

(** The ids of the scene items, in order. *)
Definition itemIds (s : State) : list string := item_id <$> items s.


(** What the furniture traversal leaves in a node. *)
Definition furnitureNode (child : Object3D) : Object3D :=
  if isMesh child then
    {| isMesh := isMesh child; castShadow := true; receiveShadow := true;
       material := material child |}
  else child.

(** The part of a point light that a preset fixes by itself. *)
Definition lightStyle (l : PointLight) : string * float * float * bool :=
  (pl_color l, pl_intensity l, pl_decay l, pl_castShadow l).

(** The part of a rig that a preset fixes by itself: everything but the
    positions and the falloff distances. *)
Definition rigStyle (v : JS.value RoomLightingConfig)
  : JS.value (AmbientLight * (string * string * float)
              * list (string * float * float * bool)) :=
  match v with
  | JS.object config =>
      JS.object
        (ambientLight config,
         (hemi_skyColor (hemisphereLight config),
          hemi_groundColor (hemisphereLight config),
          hemi_intensity (hemisphereLight config)),
         lightStyle <$> pointLights config)
  | JS.undefined => JS.undefined
  | JS.null => JS.null
  | JS.inherited key => JS.inherited key
  end.

(** [{ ...roomBounds, minY, centerY }] *)
Definition withVertical (b : RoomBounds) (minY' centerY' : float) : RoomBounds :=
  {| minX := minX b; maxX := maxX b; minY := minY'; maxY := maxY b;
     minZ := minZ b; maxZ := maxZ b;
     centerX := centerX b; centerY := centerY'; centerZ := centerZ b |}.

(** ** Properties of the lighting resolvers *)

(** Two float constants differ when the kernel's comparison tells them apart. *)
Ltac float_neq :=
  let H := fresh "H" in
  intros H; vm_compute in H;
  match type of H with
  | Some _ = Some ?y =>
      apply (f_equal (λ o, match o with
                           | Some z => PrimFloat.eqb z y
                           | None => false
                           end)) in H
  | ?x = ?y => apply (f_equal (λ z, PrimFloat.eqb z y)) in H
  end;
  vm_compute in H; discriminate H.

(** Membership in an explicit list, by position. *)
Ltac in_list :=
  solve [ repeat first [ apply list_elem_of_here | apply list_elem_of_further ] ].

Section Resolvers.

Implicit Types (b : RoomBounds) (preset : string).

Lemma room_configs_unknown b preset :
  preset ∉ room_preset_ids → room_configs b !! preset = None.
Proof. intros Hout. by apply not_elem_of_list_to_map_1. Qed.

Lemma furniture_configs_unknown preset :
  preset ∉ furniture_preset_ids → furniture_configs !! preset = None.
Proof. intros Hout. by apply not_elem_of_list_to_map_1. Qed.



(** An identifier that neither the table nor [Object.prototype] defines
    resolves to [null]. *)
Lemma getRoomLightingConfig_unknown b preset :
  preset ∉ room_preset_ids → preset ∉ JS.Object_prototype →
  getRoomLightingConfig preset (Some b) = JS.null.
Proof.
  intros Hout Hproto. unfold getRoomLightingConfig, JS.get.
  rewrite room_configs_unknown by done.
  by rewrite bool_decide_eq_false_2.
Qed.

(** An identifier outside the table that [Object.prototype] defines resolves
    to the inherited member. *)
Lemma getRoomLightingConfig_prototype b preset :
  preset ∉ room_preset_ids → preset ∈ JS.Object_prototype →
  getRoomLightingConfig preset (Some b) = JS.inherited preset.
Proof.
  intros Hout Hproto. unfold getRoomLightingConfig, JS.get.
  rewrite room_configs_unknown by done.
  by rewrite bool_decide_eq_true_2.
Qed.

Lemma getRoomLightingConfig_known b preset :
  preset ∈ room_preset_ids → preset ≠ "off" →
  getRoomLightingConfig preset (Some b) ∈
    JS.object <$> [warm_evening b; bright_day b; cozy_night b; studio_neutral b; sunset b].
Proof.
  intros Hin Hoff. unfold room_preset_ids in Hin.
  repeat (apply elem_of_cons in Hin as [->|Hin]);
    try done; try (by apply elem_of_nil in Hin); cbn; set_solver.
Qed.

Lemma getFurnitureLightingConfig_known preset :
  preset ∈ furniture_preset_ids →
  ∃ cfg, getFurnitureLightingConfig preset = JS.object cfg.
Proof.
  intros Hin. unfold furniture_preset_ids in Hin.
  repeat (apply elem_of_cons in Hin as [->|Hin]);
    try (by apply elem_of_nil in Hin); eexists; reflexivity.
Qed.

Lemma getFurnitureLightingConfig_unknown preset :
  preset ∉ furniture_preset_ids → preset ∉ JS.Object_prototype →
  getFurnitureLightingConfig preset = JS.object furniture_default.
Proof.
  intros Hout Hproto. unfold getFurnitureLightingConfig, JS.get at 1.
  rewrite furniture_configs_unknown by done.
  by rewrite bool_decide_eq_false_2.
Qed.

Lemma getFurnitureLightingConfig_prototype preset :
  preset ∉ furniture_preset_ids → preset ∈ JS.Object_prototype →
  getFurnitureLightingConfig preset = JS.inherited preset.
Proof.
  intros Hout Hproto. unfold getFurnitureLightingConfig, JS.get at 1.
  rewrite furniture_configs_unknown by done.
  by rewrite bool_decide_eq_true_2.
Qed.

(** Rendering the rig of an inherited member throws: such a member has no
    [ambientLight]. *)
Lemma RoomLights_prototype b preset (intensityMultiplier : float) :
  preset ∉ room_preset_ids → preset ∈ JS.Object_prototype →
  RoomLights preset (Some b) intensityMultiplier = renderTypeError.
Proof.
  intros Hout Hproto. unfold RoomLights.
  destruct (String.eqb_spec preset "off") as [->|_].
  { exfalso. apply Hout. unfold room_preset_ids. in_list. }
  cbn [orb]. rewrite bool_decide_eq_false_2 by done.
  by rewrite getRoomLightingConfig_prototype.
Qed.

Lemma FurnitureLights_prototype preset (intensityMultiplier : float) :
  preset ∉ furniture_preset_ids → preset ∈ JS.Object_prototype →
  FurnitureLights preset intensityMultiplier = renderTypeError.
Proof.
  intros Hout Hproto. unfold FurnitureLights.
  by rewrite getFurnitureLightingConfig_prototype.
Qed.

Lemma corner_light_intro b ex ez color intensity distance :
  ex ∈ [minX b; maxX b] → ez ∈ [minZ b; maxZ b] →
  distance = lightDistance b ∨ distance = lightDistance b * 0.7 →
  corner_light b
    (ceilingLight (centerX b + (ex - centerX b) * cornerMargin, ceilingY b,
                   centerZ b + (ez - centerZ b) * cornerMargin)
       color intensity distance).
Proof. intros Hx Hz Hd. exists ex, ez. by repeat split. Qed.

End Resolvers.

Create HintDb rig.

#[local] Hint Extern 1 (_ ∈ _ :: _) => in_list : rig.

(** A light of a table entry is a corner light at the given extremes. *)
Ltac corner ex ez :=
  left; apply (corner_light_intro _ ex ez); [auto with rig | auto with rig | auto].

(** A light of a table entry is the center light. *)
Ltac center := right; split; [auto | reflexivity].

(** C5. For every bounds [b] and every preset of the table other than ["off"],
    the resolver returns a rig whose point lights are each either a corner
    light (X and Z at 80% from the center towards an X extreme and a Z extreme,
    Y at [maxY * 0.9], falloff distance [max(maxX - minX, maxZ - minZ) * 0.8]
    times the preset's factor, decay 2) or the center light (at
    [maxY * 0.9] with factor 1.2, or half a unit lower with factor 0.6, decay
    2). For the documented bounds and ['warm-evening'], one corner light is at
    [(4, 3.6, 4)] and the center light is at [(0, 3.6, 0)] with falloff
    distance 9.6. *)
Theorem room_rig_geometry (b : RoomBounds) (preset : string) :
  preset ∈ room_preset_ids → preset ≠ "off" →
  (∃ cfg,
     getRoomLightingConfig preset (Some b) = JS.object cfg ∧
     Forall (λ l, corner_light b l ∨ center_light b l) (pointLights cfg)) ∧
  (∃ cfg corner center,
     getRoomLightingConfig "warm-evening" (Some scenarioBounds) = JS.object cfg ∧
     corner ∈ pointLights cfg ∧ center ∈ pointLights cfg ∧
     corner_light scenarioBounds corner ∧ center_light scenarioBounds center ∧
     pl_position corner = (4, 3.6, 4) ∧
     pl_position center = (0, 3.6, 0) ∧ pl_distance center = 9.6).
Proof.
  intros Hin Hoff. split.
  - unfold room_preset_ids in Hin.
    repeat (apply elem_of_cons in Hin as [->|Hin]);
      try done; try (by apply elem_of_nil in Hin);
      (eexists; split; [reflexivity|]); repeat apply Forall_cons_2;
      try apply Forall_nil_2.
    all: first
      [ corner (maxX b) (maxZ b) | corner (minX b) (maxZ b)
      | corner (minX b) (minZ b) | corner (maxX b) (minZ b) | center ].
  - exists (warm_evening scenarioBounds).
    exists (ceilingLight (corner1X scenarioBounds, ceilingY scenarioBounds,
                          corner1Z scenarioBounds)
              "#ffdb99" 1.2 (lightDistance scenarioBounds)).
    exists (ceilingLight (centerX scenarioBounds, ceilingY scenarioBounds,
                          centerZ scenarioBounds)
              "#ffe4b3" 1.5 (lightDistance scenarioBounds * 1.2)).
    split; [reflexivity|].
    split; [cbn; in_list|].
    split; [cbn; in_list|].
    split.
    { apply (corner_light_intro _ (maxX scenarioBounds) (maxZ scenarioBounds));
        auto with rig. }
    split; [split; [auto | reflexivity]|].
    by vm_compute.
Qed.

(** The geometry theorem at the documented bounds and ['cozy-night']. *)
Lemma room_rig_geometry_witness :
  (∃ cfg,
     getRoomLightingConfig "cozy-night" (Some scenarioBounds) = JS.object cfg ∧
     Forall (λ l, corner_light scenarioBounds l ∨ center_light scenarioBounds l)
       (pointLights cfg)) ∧
  (∃ cfg corner center,
     getRoomLightingConfig "warm-evening" (Some scenarioBounds) = JS.object cfg ∧
     corner ∈ pointLights cfg ∧ center ∈ pointLights cfg ∧
     corner_light scenarioBounds corner ∧ center_light scenarioBounds center ∧
     pl_position corner = (4, 3.6, 4) ∧
     pl_position center = (0, 3.6, 0) ∧ pl_distance center = 9.6).
Proof.
  apply (room_rig_geometry scenarioBounds "cozy-night").
  - unfold room_preset_ids. in_list.
  - discriminate.
Defined.

(** C6, at a failing input. ["constructor"] is not a key of the preset table,
    yet for every bounds the lookup [configs[preset]] finds the member that the
    object literal inherits from [Object.prototype]; that value is truthy, so
    [configs[preset] || null] returns it instead of [null], and [RoomLights]
    throws when it reads the rig out of it. *)
Theorem getRoomLightingConfig_constructor (b : RoomBounds) (intensityMultiplier : float) :
  ("constructor" ∉ room_preset_ids) ∧
  getRoomLightingConfig "constructor" (Some b) = JS.inherited "constructor" ∧
  getRoomLightingConfig "constructor" (Some b) ≠ JS.null ∧
  RoomLights "constructor" (Some b) intensityMultiplier = renderTypeError.
Proof.
  split; [compute_done|].
  split; [reflexivity|]. split; [discriminate | reflexivity].
Qed.

(** C7, at a failing input. ["toString"] is not a key of the furniture table,
    and the resolver returns the inherited [Object.prototype.toString] rather
    than the values of the ['default'] entry; [FurnitureLights] throws when it
    reads the rig out of it. *)
Theorem getFurnitureLightingConfig_toString (intensityMultiplier : float) :
  ("toString" ∉ furniture_preset_ids) ∧
  getFurnitureLightingConfig "toString" = JS.inherited "toString" ∧
  getFurnitureLightingConfig "default" = JS.object furniture_default ∧
  getFurnitureLightingConfig "toString" ≠ getFurnitureLightingConfig "default" ∧
  FurnitureLights "toString" intensityMultiplier = renderTypeError.
Proof.
  split; [compute_done|].
  split; [reflexivity|]. split; [reflexivity|]. split; [discriminate | reflexivity].
Qed.

(** ** Properties of the brightness effect *)

Section Brightness.

Implicit Types (brightness : float) (m : Material) (ud : Baseline).

(** The clamp of [Math.min(x, 1)]: the result is never above 1 (a [NaN]
    result compares false with everything). *)
Lemma Math_min_one_bound (x : float) : (1 <? JS.Math_min x 1) = false.
Proof.
  unfold JS.Math_min, JS.min_step.
  destruct (is_nan x); [reflexivity|]. cbn [orb].
  change (is_nan 1) with false. cbn iota.
  change (JS.is_pos_zero infinity) with false. rewrite andb_false_r.
  change (JS.is_neg_zero 1) with false. cbn [andb].
  destruct (x <? infinity); [|reflexivity].
  destruct (1 <? x) eqn:Hlt; [reflexivity | exact Hlt].
Qed.

Lemma adjustMaterial_userData brightness m :
  userData (adjustMaterial brightness m) = Some (baselineOf m).
Proof. unfold adjustMaterial, baselineOf. by destruct (userData m), (emissive m). Qed.

Lemma adjustMaterial_color brightness m :
  color (adjustMaterial brightness m) =
    {| col_r := JS.Math_min (col_r (originalColor (baselineOf m)) * brightness) 1;
       col_g := JS.Math_min (col_g (originalColor (baselineOf m)) * brightness) 1;
       col_b := JS.Math_min (col_b (originalColor (baselineOf m)) * brightness) 1 |}.
Proof. unfold adjustMaterial, baselineOf. by destruct (userData m), (emissive m). Qed.

(** A later adjustment forgets the earlier one. *)
Lemma adjustMaterial_absorb b1 b2 m :
  adjustMaterial b2 (adjustMaterial b1 m) = adjustMaterial b2 m.
Proof.
  unfold adjustMaterial.
  destruct m as [c [e|] ei [ud|] nu]; cbn; try reflexivity;
    by destruct (originalEmissive ud).
Qed.

(** Running [alter f] along a list of references changes exactly the
    referenced cells, once, when [f] is idempotent. *)
Lemma foldl_alter_lookup {A} (f : A → A) (refs : list nat) (cells : list A) (i : nat) :
  (∀ x, f (f x) = f x) →
  foldl (λ cells ref, alter f ref cells) cells refs !! i =
    if decide (i ∈ refs) then f <$> cells !! i else cells !! i.
Proof.
  intros Hidem. revert cells.
  induction refs as [|ref refs IH]; intros cells; cbn [foldl].
  - by rewrite decide_False by apply not_elem_of_nil.
  - rewrite IH. destruct (decide (i = ref)) as [->|Hne].
    + rewrite list_lookup_alter_eq, (decide_True (P := ref ∈ ref :: refs))
        by apply list_elem_of_here.
      case_decide; [|done]. destruct (cells !! ref); cbn; by rewrite ?Hidem.
    + rewrite list_lookup_alter_ne by done.
      destruct (decide (i ∈ refs)) as [Hin|Hout].
      * by rewrite decide_True by by apply list_elem_of_further.
      * rewrite decide_False; [done|]. rewrite elem_of_cons. tauto.
Qed.

Lemma foldl_alter_absorb {A} (f g : A → A) (refs : list nat) (cells : list A) :
  (∀ x, f (f x) = f x) → (∀ x, g (g x) = g x) → (∀ x, g (f x) = g x) →
  foldl (λ cells ref, alter g ref cells)
    (foldl (λ cells ref, alter f ref cells) cells refs) refs =
  foldl (λ cells ref, alter g ref cells) cells refs.
Proof.
  intros Hf Hg Hgf. apply list_eq; intros i.
  rewrite !foldl_alter_lookup by done.
  case_decide; [|done]. destruct (cells !! i); cbn; by rewrite ?Hgf.
Qed.

(** The room traversal: every mesh gets the room's shadow flags, and the
    materials of the meshes are adjusted in visiting order. *)
Lemma traverse_room brightness (scene : list Object3D) (materials : list Material) :
  traverse true brightness scene materials =
    (roomNode <$> scene,
     foldl (λ materials ref, alter (adjustMaterial brightness) ref materials)
       materials (meshMaterials scene)).
Proof.
  revert materials. induction scene as [|child scene IH]; intros materials; [done|].
  cbn [traverse]. unfold visitChild, meshMaterials, roomNode.
  destruct child as [[] cs rs [ref|]]; cbn; by rewrite IH.
Qed.

Lemma roomNode_idem (child : Object3D) : roomNode (roomNode child) = roomNode child.
Proof. unfold roomNode. by destruct child as [[] ? ? ?]. Qed.

Lemma meshMaterials_roomNode (scene : list Object3D) :
  meshMaterials (roomNode <$> scene) = meshMaterials scene.
Proof.
  unfold meshMaterials. induction scene as [|child scene IH]; [done|].
  cbn. rewrite IH. unfold roomNode. by destruct child as [[] ? ? ?].
Qed.

End Brightness.

(** C3, counterexample. With the slider at 0.5 the code lowers the emissive
    intensity of [wallMaterial] from its baseline 1 to 0.75, where the clamped
    formula keeps it at 1. *)
Lemma dimming_lowers_emissive_intensity :
  userData wallMaterial = Some wallBaseline ∧
  emissiveIntensity (adjustMaterial 0.5 wallMaterial) = Some 0.75 ∧
  clampedEmissiveIntensity (originalEmissiveIntensity wallBaseline) 0.5 = 1 ∧
  emissiveIntensity (adjustMaterial 0.5 wallMaterial) ≠
    Some (clampedEmissiveIntensity (originalEmissiveIntensity wallBaseline) 0.5).
Proof.
  split; [reflexivity|]. split; [reflexivity|]. split; [reflexivity|].
  float_neq.
Qed.

(** C3, amended. For a material with captured baseline [ud] and every
    brightness, each RGB channel becomes [min(baselineChannel * brightness, 1)]
    and is never above 1, and the baseline stays as it is. When the material
    has an emissive color, that color is restored to the baseline emissive
    color and the emissive intensity becomes
    [baselineEmissiveIntensity + (brightness - 1) * 0.5], with no clamp at
    zero; a material without an emissive color keeps its emissive fields. *)
Theorem adjustMaterial_postcondition (brightness : float) (m : Material) (ud : Baseline) :
  userData m = Some ud →
  let m' := adjustMaterial brightness m in
  col_r (color m') = JS.Math_min (col_r (originalColor ud) * brightness) 1 ∧
  col_g (color m') = JS.Math_min (col_g (originalColor ud) * brightness) 1 ∧
  col_b (color m') = JS.Math_min (col_b (originalColor ud) * brightness) 1 ∧
  (1 <? col_r (color m')) = false ∧
  (1 <? col_g (color m')) = false ∧
  (1 <? col_b (color m')) = false ∧
  userData m' = Some ud ∧
  match emissive m with
  | Some e =>
      emissive m' = Some (default e (originalEmissive ud)) ∧
      emissiveIntensity m' =
        Some (originalEmissiveIntensity ud + (brightness - 1) * 0.5)
  | None => emissive m' = None ∧ emissiveIntensity m' = emissiveIntensity m
  end.
Proof.
  intros Hud m'. subst m'.
  rewrite adjustMaterial_color, adjustMaterial_userData.
  unfold baselineOf. rewrite Hud. cbn [default col_r col_g col_b].
  repeat split; try apply Math_min_one_bound.
  unfold adjustMaterial. rewrite Hud.
  destruct (emissive m) as [e|]; cbn; [|done].
  by destruct (originalEmissive ud).
Qed.

(** The postcondition at [wallMaterial] and brightness 1.5. *)
Lemma adjustMaterial_postcondition_witness :
  let m' := adjustMaterial 1.5 wallMaterial in
  col_r (color m') = JS.Math_min (col_r (originalColor wallBaseline) * 1.5) 1 ∧
  col_g (color m') = JS.Math_min (col_g (originalColor wallBaseline) * 1.5) 1 ∧
  col_b (color m') = JS.Math_min (col_b (originalColor wallBaseline) * 1.5) 1 ∧
  (1 <? col_r (color m')) = false ∧
  (1 <? col_g (color m')) = false ∧
  (1 <? col_b (color m')) = false ∧
  userData m' = Some wallBaseline ∧
  match emissive wallMaterial with
  | Some e =>
      emissive m' = Some (default e (originalEmissive wallBaseline)) ∧
      emissiveIntensity m' =
        Some (originalEmissiveIntensity wallBaseline + (1.5 - 1) * 0.5)
  | None => emissive m' = None ∧ emissiveIntensity m' = emissiveIntensity wallMaterial
  end.
Proof.
  apply (adjustMaterial_postcondition 1.5 wallMaterial wallBaseline). reflexivity.
Defined.

(** C4. The baseline is captured on the first adjustment only and a later
    adjustment leaves it as it is; adjusting twice with one brightness equals
    adjusting once; adjusting with [b1] and then with [b2] equals adjusting
    with [b2] from the start. The same holds for the whole room traversal
    over a store of materials that meshes may share. *)
Theorem brightness_idempotent_drift_free
    (b1 b2 : float) (m : Material) (scene : list Object3D) (materials : list Material) :
  userData (adjustMaterial b1 m) = Some (default (captureBaseline m) (userData m)) ∧
  userData (adjustMaterial b2 (adjustMaterial b1 m)) = userData (adjustMaterial b1 m) ∧
  adjustMaterial b1 (adjustMaterial b1 m) = adjustMaterial b1 m ∧
  adjustMaterial b2 (adjustMaterial b1 m) = adjustMaterial b2 m ∧
  color (adjustMaterial b2 (adjustMaterial b1 m)) = color (adjustMaterial b2 m) ∧
  (let (scene1, materials1) := traverse true b1 scene materials in
   traverse true b1 scene1 materials1 = (scene1, materials1) ∧
   traverse true b2 scene1 materials1 = traverse true b2 scene materials).
Proof.
  split; [apply adjustMaterial_userData|].
  split; [by rewrite adjustMaterial_absorb, !adjustMaterial_userData|].
  split; [apply adjustMaterial_absorb|].
  split; [apply adjustMaterial_absorb|].
  split; [by rewrite adjustMaterial_absorb|].
  rewrite (traverse_room b1 scene materials), !traverse_room.
  rewrite meshMaterials_roomNode, <-list_fmap_compose.
  assert (roomNode ∘ roomNode <$> scene = roomNode <$> scene) as ->.
  { apply list_fmap_ext; intros ? child _. apply roomNode_idem. }
  split; f_equal.
  - rewrite foldl_alter_absorb; auto using adjustMaterial_absorb.
  - apply foldl_alter_absorb; auto using adjustMaterial_absorb.
Qed.

(** ** Properties of the store *)

Section Store.

Implicit Types (s prior : State) (doc : SceneDocument) (url id : string).

(** [x || d] gives [x] back exactly when [x] is truthy, for a truthy default. *)
Lemma or_number_fixed (x d : float) :
  JS.falsy_number d = false →
  JS.or_number (Some x) d = x ↔ JS.falsy_number x = false.
Proof.
  intros Hd. unfold JS.or_number.
  destruct (JS.falsy_number x) eqn:Hx; [|done].
  split; [|done]. intros <-. congruence.
Qed.



(** The room intensity survives saving and loading exactly when it is neither
    zero nor [NaN]. *)
Lemma save_load_roomLightIntensity s :
  roomLightIntensity (loadScene (sceneData s) s) = roomLightIntensity s ↔
  JS.falsy_number (roomLightIntensity s) = false.
Proof. cbn -[JS.or_number]. by apply or_number_fixed. Qed.

Lemma removeLibraryItem_cascade s url (item : SceneItem) :
  item ∈ items (removeLibraryItem url s) → item_url item ≠ url ∧ item ∈ items s.
Proof. cbn. by rewrite list_elem_of_filter. Qed.

Lemma removeLibraryItem_library s url (item : LibraryItem) :
  item ∈ library (removeLibraryItem url s) → lib_url item ≠ url.
Proof. cbn. rewrite list_elem_of_filter. tauto. Qed.

(** [removeLibraryItem] never writes [selectedItem]. *)
Lemma removeLibraryItem_selectedItem s url :
  selectedItem (removeLibraryItem url s) = selectedItem s.
Proof. reflexivity. Qed.

(** The duplicate test of [handleFileChange] is membership of the name. *)
Lemma isDuplicate_spec (lib : list LibraryItem) (name : string) :
  existsb (λ item, String.eqb (lib_name item) name) lib = true ↔
  name ∈ lib_name <$> lib.
Proof.
  induction lib as [|item lib IH]; cbn.
  - split; [done|]. by intros ?%elem_of_nil.
  - rewrite orb_true_iff, IH, elem_of_cons, String.eqb_eq.
    split; (intros [Heq|Hin]; [left; congruence | right; exact Hin]).
Qed.

End Store.

(** C1, at a failing input. With the room-intensity slider at its minimum the
    store holds 0; [handleSave] writes 0 into the document, and [loadScene]
    reads [0 || 1.0], so the loaded store holds 1 instead of 0. *)
Theorem save_load_zero_intensity :
  roomLightIntensity dimmedStore = 0 ∧
  doc_roomLightIntensity (sceneData dimmedStore) = Some 0 ∧
  roomLightIntensity (loadScene (sceneData dimmedStore) dimmedStore) = 1 ∧
  roomLightIntensity (loadScene (sceneData dimmedStore) dimmedStore) ≠
    roomLightIntensity dimmedStore.
Proof. repeat (split; [reflexivity|]). float_neq. Qed.

(** C2, at a failing input. In [showroom] the selected item references the
    library asset [chair]. Removing the asset removes the item, but the store
    still names the removed item as the selection. *)
Theorem removeLibraryItem_keeps_selection :
  library showroom = [chair] ∧
  selectedItem showroom = Some "item-1" ∧
  (item_id <$> filter (λ item, item_url item = lib_url chair) (items showroom))
    = ["item-1"] ∧
  items (removeLibraryItem (lib_url chair) showroom) = [] ∧
  library (removeLibraryItem (lib_url chair) showroom) = [] ∧
  selectedItem (removeLibraryItem (lib_url chair) showroom) = Some "item-1".
Proof. by vm_compute. Qed.

(** C8. Whatever the prior store, [loadScene] gives each field that the
    document lacks its fixed default: [items] and [library] the empty list,
    [environment] ['studio'], [roomLightingPreset] ['warm-evening'],
    [furnitureLightingPreset] ['default'], both intensities and the material
    brightness 1.0. In particular [loadScene({})] yields ['warm-evening'],
    room intensity 1.0 and no items. *)
Theorem loadScene_defaults (prior : State) (doc : SceneDocument) :
  (doc_items doc = None → items (loadScene doc prior) = []) ∧
  (doc_library doc = None → library (loadScene doc prior) = []) ∧
  (doc_environment doc = None → environment (loadScene doc prior) = "studio") ∧
  (doc_roomLightingPreset doc = None →
   roomLightingPreset (loadScene doc prior) = "warm-evening") ∧
  (doc_furnitureLightingPreset doc = None →
   furnitureLightingPreset (loadScene doc prior) = "default") ∧
  (doc_roomLightIntensity doc = None →
   roomLightIntensity (loadScene doc prior) = 1.0) ∧
  (doc_furnitureLightIntensity doc = None →
   furnitureLightIntensity (loadScene doc prior) = 1.0) ∧
  (doc_roomMaterialBrightness doc = None →
   roomMaterialBrightness (loadScene doc prior) = 1.0) ∧
  roomLightingPreset (loadScene emptyDocument prior) = "warm-evening" ∧
  roomLightIntensity (loadScene emptyDocument prior) = 1.0 ∧
  items (loadScene emptyDocument prior) = [].
Proof.
  repeat split; try reflexivity; intros Hmissing; cbn; by rewrite Hmissing.
Qed.

(** The defaults at the empty document, loaded over [twoChairs]. *)
Lemma loadScene_defaults_witness :
  items (loadScene emptyDocument twoChairs) = [] ∧
  library (loadScene emptyDocument twoChairs) = [] ∧
  environment (loadScene emptyDocument twoChairs) = "studio" ∧
  roomLightingPreset (loadScene emptyDocument twoChairs) = "warm-evening" ∧
  furnitureLightingPreset (loadScene emptyDocument twoChairs) = "default" ∧
  roomLightIntensity (loadScene emptyDocument twoChairs) = 1.0 ∧
  furnitureLightIntensity (loadScene emptyDocument twoChairs) = 1.0 ∧
  roomMaterialBrightness (loadScene emptyDocument twoChairs) = 1.0.
Proof.
  destruct (loadScene_defaults twoChairs emptyDocument)
    as (H1 & H2 & H3 & H4 & H5 & H6 & H7 & H8 & _).
  exact (conj (H1 eq_refl) (conj (H2 eq_refl) (conj (H3 eq_refl) (conj (H4 eq_refl)
           (conj (H5 eq_refl) (conj (H6 eq_refl) (conj (H7 eq_refl) (H8 eq_refl)))))))).
Defined.

(** C9, counterexample. [addLibraryItem] with a name that the library holds
    already appends all the same: the library changes and then holds the name
    twice. *)
Lemma addLibraryItem_duplicate_name :
  lib_name chairAgain ∈ libraryNames oneChair ∧
  library (addLibraryItem chairAgain oneChair) = [chair; chairAgain] ∧
  library (addLibraryItem chairAgain oneChair) ≠ library oneChair ∧
  libraryNames (addLibraryItem chairAgain oneChair) = ["chair.glb"; "chair.glb"] ∧
  ¬ NoDup (libraryNames (addLibraryItem chairAgain oneChair)).
Proof.
  split; [cbn; in_list|]. split; [reflexivity|]. split; [discriminate|].
  split; [reflexivity|].
  intros Hnodup. apply NoDup_cons_1_1 in Hnodup. apply Hnodup. cbn. in_list.
Qed.

(** C9, amended. The store's [addLibraryItem] appends unconditionally; the
    guard is in [handleFileChange], which compares names case-sensitively.
    When the names of the library are unique, an upload that is checked
    against that library and settled on it leaves them unique, and an upload
    under a name that the library holds leaves the store as it is. *)
Theorem upload_keeps_names_unique (s : State) (file : option File) :
  NoDup (libraryNames s) →
  NoDup (libraryNames (settle (handleFileChange (library s) file) s)) ∧
  (∀ f, file = Some f → file_name f ∈ libraryNames s →
        settle (handleFileChange (library s) file) s = s) ∧
  (∀ newItem, library (addLibraryItem newItem s) = library s ++ [newItem]).
Proof.
  intros Hnodup. split; [|split; [|done]].
  - unfold handleFileChange. destruct file as [f|]; [|done].
    destruct (JS.endsWith _ _); [|done].
    destruct (existsb _ _) eqn:Hdup; [done|].
    unfold libraryNames in *. cbn. rewrite fmap_app. apply NoDup_app.
    split; [done|]. split; [|apply NoDup_singleton].
    intros name Hname ->%list_elem_of_singleton.
    apply isDuplicate_spec in Hname. cbn in Hname. congruence.
  - intros f -> Hname. unfold handleFileChange.
    destruct (JS.endsWith _ _); [|done].
    apply isDuplicate_spec in Hname. by rewrite Hname.
Qed.

(** The upload guard at [oneChair] and a second upload of ["chair.glb"]. *)
Lemma upload_keeps_names_unique_witness :
  NoDup (libraryNames
           (settle (handleFileChange (library oneChair)
                      (Some (mkFile "chair.glb" "data:,"))) oneChair)) ∧
  (∀ f, Some (mkFile "chair.glb" "data:,") = Some f →
        file_name f ∈ libraryNames oneChair →
        settle (handleFileChange (library oneChair)
                  (Some (mkFile "chair.glb" "data:,"))) oneChair = oneChair) ∧
  (∀ newItem, library (addLibraryItem newItem oneChair) = library oneChair ++ [newItem]).
Proof.
  apply (upload_keeps_names_unique oneChair (Some (mkFile "chair.glb" "data:,"))).
  apply NoDup_singleton.
Defined.

(** C10, counterexample. In [twoChairs] the selected item is ["item-2"];
    deleting ["item-1"] clears the selection all the same. *)
Lemma deleteItem_other_clears_selection :
  selectedItem twoChairs = Some "item-2" ∧
  (item_id <$> items (deleteItem "item-1" twoChairs)) = ["item-2"] ∧
  selectedItem (deleteItem "item-1" twoChairs) = None ∧
  selectedItem (deleteItem "item-1" twoChairs) ≠ selectedItem twoChairs.
Proof. by vm_compute. Qed.

(** C10, amended. [deleteItem(id)] removes the items whose id is [id] and sets
    the selection to none, whichever item was selected; every other field of
    the store is unchanged. *)
Theorem deleteItem_frame (s : State) (id : string) :
  items (deleteItem id s) = filter (λ item, item_id item ≠ id) (items s) ∧
  selectedItem (deleteItem id s) = None ∧
  library (deleteItem id s) = library s ∧
  environment (deleteItem id s) = environment s ∧
  roomLightingPreset (deleteItem id s) = roomLightingPreset s ∧
  furnitureLightingPreset (deleteItem id s) = furnitureLightingPreset s ∧
  roomBounds (deleteItem id s) = roomBounds s ∧
  roomLightIntensity (deleteItem id s) = roomLightIntensity s ∧
  furnitureLightIntensity (deleteItem id s) = furnitureLightIntensity s ∧
  roomMaterialBrightness (deleteItem id s) = roomMaterialBrightness s ∧
  transformMode (deleteItem id s) = transformMode s.
Proof. by repeat split. Qed.

(** ** Sanity checks of the embedding on concrete inputs *)

Example Math_min_examples :
  JS.Math_min 0.5 1 = 0.5 ∧ JS.Math_min 3 1 = 1 ∧ JS.Math_min nan 1 = nan ∧
  JS.Math_min 0 (-0) = -0 ∧ JS.Math_max (-0) 0 = 0 ∧ JS.Math_max 10 10 = 10.
Proof. by vm_compute. Qed.

Example endsWith_examples :
  JS.endsWith "room.glb" ".glb" = true ∧ JS.endsWith "glb" ".glb" = false ∧
  JS.endsWith "scene.json" ".glb" = false ∧ JS.endsWith "a.GLB" ".glb" = false.
Proof. by vm_compute. Qed.

Example isRoom_examples :
  isRoom "Room.GLB" = true ∧ isRoom "room.glb" = true ∧ isRoom "chair.glb" = false ∧
  isRoom EmptyString = false.
Proof. by vm_compute. Qed.

(** The duplicate check compares names exactly: a name that differs in case
    passes it. *)
Example handleFileChange_case_sensitive :
  handleFileChange [chair] (Some (mkFile "Chair.glb" "data:,")) =
    ReadThenAdd (mkLibraryItem "Chair.glb" "data:,") ∧
  handleFileChange [chair] (Some (mkFile "chair.glb" "data:,")) =
    AlertDuplicate "chair.glb" ∧
  handleFileChange [chair] (Some (mkFile "chair.obj" "data:,")) = AlertNotGlb ∧
  handleFileChange [chair] None = AlertNotGlb.
Proof. by vm_compute. Qed.

(** The sibling of [removeLibraryItem]: [deleteItem] clears the selection. *)
Example deleteItem_clears_selection :
  selectedItem (deleteItem "item-1" showroom) = None ∧
  items (deleteItem "item-1" showroom) = [].
Proof. by vm_compute. Qed.

(** The documented scenario, rendered by [RoomLights] at intensity 1. *)
Example RoomLights_scenario :
  RoomLights "off" (Some scenarioBounds) 1 = renderNull ∧
  RoomLights "warm-evening" None 1 = renderNull ∧
  RoomLights "no-such-preset" (Some scenarioBounds) 1 = renderNull ∧
  ∃ ambient hemisphere corner1 corner2 corner3 corner4 center,
    RoomLights "warm-evening" (Some scenarioBounds) 1 =
      renderFragment [ambient; hemisphere; corner1; corner2; corner3; corner4; center] ∧
    corner1 = pointLightElement (4, 3.6, 4) "#ffdb99" 1.2 8 2 true ∧
    corner3 = pointLightElement (-4, 3.6, -4) "#ffdb99" 1.2 8 2 true ∧
    center = pointLightElement (0, 3.6, 0) "#ffe4b3" 1.5 9.6 2 true.
Proof.
  split; [reflexivity|]. split; [reflexivity|]. split; [reflexivity|].
  do 7 eexists. split; [by vm_compute|]. by vm_compute.
Qed.

(** ** Further properties of the store and its handlers *)

Section StoreAlgebra.

Implicit Types (s : State) (doc : SceneDocument) (url id : string).




Lemma filter_twice {A} (P : A → Prop) `{!∀ x, Decision (P x)} (l : list A) :
  filter P (filter P l) = filter P l.
Proof. rewrite list_filter_filter. apply list_filter_iff. tauto. Qed.

Lemma filter_swap {A} (P Q : A → Prop)
    `{!∀ x, Decision (P x), !∀ x, Decision (Q x)} (l : list A) :
  filter P (filter Q l) = filter Q (filter P l).
Proof. rewrite !list_filter_filter. apply list_filter_iff. tauto. Qed.

Lemma filter_all {A} (P : A → Prop) `{!∀ x, Decision (P x)} (l : list A) :
  (∀ x, x ∈ l → P x) → filter P l = l.
Proof.
  induction l as [|x l IH]; intros Hall; [done|].
  rewrite filter_cons_True by (apply Hall; apply list_elem_of_here).
  f_equal. apply IH. intros y Hy. apply Hall. by apply list_elem_of_further.
Qed.

Lemma NoDup_fmap_filter {A B} (f : A → B) (P : A → Prop)
    `{!∀ x, Decision (P x)} (l : list A) :
  NoDup (f <$> l) → NoDup (f <$> filter P l).
Proof.
  intros Hnodup. eapply sublist_NoDup; [exact Hnodup|].
  apply fmap_sublist, sublist_filter.
Qed.

(** Under unique keys, two elements with one key are one element. *)
Lemma NoDup_fmap_same_key {A B} (f : A → B) (l : list A) (x y : A) :
  NoDup (f <$> l) → x ∈ l → y ∈ l → f x = f y → x = y.
Proof.
  induction l as [|z l IH]; intros Hnodup Hx Hy Hkey.
  { by apply elem_of_nil in Hx. }
  rewrite fmap_cons in Hnodup. apply NoDup_cons in Hnodup as [Hz Hnodup].
  apply elem_of_cons in Hx as [->|Hx]; apply elem_of_cons in Hy as [->|Hy].
  - done.
  - exfalso. apply Hz. rewrite Hkey. by apply list_elem_of_fmap_2.
  - exfalso. apply Hz. rewrite <-Hkey. by apply list_elem_of_fmap_2.
  - by apply IH.
Qed.

Lemma updateItem_ids s id (props : ItemProps) :
  itemIds (updateItem id props s) = itemIds s.
Proof.
  unfold itemIds. cbn. rewrite <-list_fmap_compose.
  apply list_fmap_ext. intros ? item _. cbn. by case_decide.
Qed.

Lemma loadScene_truthy doc s : truthyKnobs (loadScene doc s).
Proof.
  unfold truthyKnobs. cbn -[JS.or_string JS.or_number].
  assert (∀ x d, d ≠ EmptyString → JS.or_string x d ≠ EmptyString) as Hstr.
  { intros [v|] d Hd; cbn; [|done]. by destruct (String.eqb_spec v EmptyString). }
  assert (∀ x, JS.falsy_number (JS.or_number x 1.0) = false) as Hnum.
  { intros [v|]; cbn; [|done]. by destruct (JS.falsy_number v) eqn:Hv. }
  repeat split; first [ by apply Hstr | apply Hnum ].
Qed.

Lemma ui_step_orphanFree s s' : ui_step s s' → orphanFree s → orphanFree s'.
Proof.
  intros Hstep Hfree. destruct Hstep; try exact Hfree.
  - (* upload *)
    unfold handleFileChange.
    destruct file as [f|]; [|exact Hfree].
    destruct (JS.endsWith _ _); [|exact Hfree].
    destruct (existsb _ _); [exact Hfree|].
    intros item Hitem. cbn in *. rewrite fmap_app, elem_of_app.
    left. by apply Hfree.
  - (* add to scene *)
    intros item Hitem. cbn in Hitem. apply elem_of_app in Hitem as [Hitem|Hitem].
    + by apply Hfree.
    + apply list_elem_of_singleton in Hitem as ->. cbn.
      by apply list_elem_of_fmap_2.
  - (* remove from library *)
    intros item Hitem. cbn in Hitem. apply list_elem_of_filter in Hitem as [Hurl Hitem].
    apply Hfree, list_elem_of_fmap in Hitem as (owner & Heq & Howner).
    cbn. apply list_elem_of_fmap. exists owner. split; [done|].
    apply list_elem_of_filter. split; [congruence | done].
  - (* drag end *)
    intros item Hitem. cbn in Hitem.
    apply list_elem_of_fmap in Hitem as (old & -> & Hold).
    apply Hfree in Hold. cbn. by case_decide.
  - (* delete *)
    unfold handleDelete. destruct (InfoPanel s); [|exact Hfree].
    destruct (selectedItem s); [|exact Hfree].
    intros item Hitem. cbn in Hitem.
    apply list_elem_of_filter in Hitem as [_ Hitem]. by apply Hfree.
Qed.

End StoreAlgebra.



(** X3. [removeLibraryItem(url)] keeps exactly the scene items and the
    library assets whose url differs from [url]; removing the same url twice
    equals removing it once, and two removals commute. *)
Theorem removeLibraryItem_algebra (s : State) (url url' : string) :
  (∀ item, item ∈ items (removeLibraryItem url s) ↔
           item ∈ items s ∧ item_url item ≠ url) ∧
  (∀ asset, asset ∈ library (removeLibraryItem url s) ↔
            asset ∈ library s ∧ lib_url asset ≠ url) ∧
  removeLibraryItem url (removeLibraryItem url s) = removeLibraryItem url s ∧
  removeLibraryItem url (removeLibraryItem url' s) =
    removeLibraryItem url' (removeLibraryItem url s).
Proof.
  split; [|split; [|split]].
  - intros item. cbn. rewrite list_elem_of_filter. tauto.
  - intros asset. cbn. rewrite list_elem_of_filter. tauto.
  - cbn. by rewrite !filter_twice.
  - cbn. f_equal; apply filter_swap.
Qed.

(** X4. No orphans: if every scene item references an asset of the library,
    this still holds after any sequence of events of the user interface
    (uploads, adding to the scene, removing from the library, drags, deletes,
    selections and the lighting controls); in particular the cascade of
    [removeLibraryItem] removes every item of the removed asset. *)
Theorem orphan_free_reachable (s s' : State) :
  orphanFree s → rtc ui_step s s' → orphanFree s'.
Proof.
  intros Hfree Hsteps. induction Hsteps as [|s1 s2 s3 Hstep _ IH]; [done|].
  apply IH. by eapply ui_step_orphanFree.
Qed.

(** The invariant along upload, add to scene and select, from the empty
    store to [showroom]. *)
Lemma orphan_free_reachable_witness : orphanFree showroom.
Proof.
  apply (orphan_free_reachable initialState showroom).
  - intros item Hitem. inversion Hitem.
  - eapply rtc_l.
    { exact (ui_upload initialState (Some (mkFile (lib_name chair) (lib_url chair)))). }
    eapply rtc_l.
    { apply (ui_add_to_scene oneChair chair "item-1"). apply list_elem_of_here. }
    eapply rtc_l; [|apply rtc_refl].
    exact (ui_select (handleAddItemToScene chair "item-1" oneChair) (Some "item-1")).
Defined.

(** X5. Unique item ids are kept: when the ids of the scene items are
    pairwise distinct, they stay so after adding an item under an id that is
    not in use, after deleting an item, after updating an item and after
    removing a library asset. *)
Theorem item_ids_stay_unique (s : State) :
  NoDup (itemIds s) →
  (∀ libItem uuid, uuid ∉ itemIds s →
     NoDup (itemIds (handleAddItemToScene libItem uuid s))) ∧
  (∀ id, NoDup (itemIds (deleteItem id s))) ∧
  (∀ id props, NoDup (itemIds (updateItem id props s))) ∧
  (∀ url, NoDup (itemIds (removeLibraryItem url s))).
Proof.
  intros Hnodup. split; [|split; [|split]].
  - intros libItem uuid Hfresh. unfold itemIds in *. cbn.
    rewrite fmap_app. apply NoDup_app. split; [done|].
    split; [|apply NoDup_singleton].
    intros id Hid ->%list_elem_of_singleton. by apply Hfresh.
  - intros id. unfold itemIds. cbn. by apply NoDup_fmap_filter.
  - intros id props. by rewrite updateItem_ids.
  - intros url. unfold itemIds. cbn. by apply NoDup_fmap_filter.
Qed.

(** The preservation of unique ids at [showroom]. *)
Lemma item_ids_stay_unique_witness :
  (∀ libItem uuid, uuid ∉ itemIds showroom →
     NoDup (itemIds (handleAddItemToScene libItem uuid showroom))) ∧
  (∀ id, NoDup (itemIds (deleteItem id showroom))) ∧
  (∀ id props, NoDup (itemIds (updateItem id props showroom))) ∧
  (∀ url, NoDup (itemIds (removeLibraryItem url showroom))).
Proof.
  apply (item_ids_stay_unique showroom). apply NoDup_singleton.
Defined.


(** X7. Adding a library asset to the scene under an id that is not in use
    and then deleting that id gives back the scene items as they were. *)
Theorem add_then_delete (s : State) (libItem : LibraryItem) (uuid : string) :
  uuid ∉ itemIds s →
  items (deleteItem uuid (handleAddItemToScene libItem uuid s)) = items s.
Proof.
  intros Hfresh. cbn. rewrite filter_app.
  rewrite filter_cons_False, filter_nil, app_nil_r by (cbn; tauto).
  apply filter_all. intros item Hitem Heq. apply Hfresh.
  unfold itemIds. rewrite <-Heq. by apply list_elem_of_fmap_2.
Qed.

(** Adding and deleting ["item-2"] in [showroom]. *)
Lemma add_then_delete_witness :
  items (deleteItem "item-2" (handleAddItemToScene chair "item-2" showroom)) =
    items showroom.
Proof.
  apply (add_then_delete showroom chair "item-2").
  unfold itemIds. cbn. intros Hin. apply list_elem_of_singleton in Hin. discriminate Hin.
Defined.

(** X8. With unique item ids, removing the library asset of the item that
    [InfoPanel] shows closes the panel: the lookup of the selected id finds no
    item any more. *)
Theorem InfoPanel_closes_on_asset_removal (s : State) (item : SceneItem) :
  NoDup (itemIds s) → InfoPanel s = Some item →
  InfoPanel (removeLibraryItem (item_url item) s) = None.
Proof.
  unfold InfoPanel. intros Hnodup Hshown.
  change (selectedItem (removeLibraryItem (item_url item) s)) with (selectedItem s).
  destruct (selectedItem s) as [selectedId|]; [|done].
  apply List.find_some in Hshown as [Hitem Hid].
  apply list_elem_of_In in Hitem. apply String.eqb_eq in Hid.
  destruct (List.find _ (items (removeLibraryItem _ s))) as [other|] eqn:Hother; [|done].
  exfalso. apply List.find_some in Hother as [Hin Hid'].
  apply list_elem_of_In in Hin. apply String.eqb_eq in Hid'.
  cbn in Hin. apply list_elem_of_filter in Hin as [Hurl Hin].
  apply Hurl. f_equal.
  apply (NoDup_fmap_same_key item_id (items s)); [done..|congruence].
Qed.

(** The panel of [showroom] closes when [chair] is removed. *)
Lemma InfoPanel_closes_on_asset_removal_witness :
  InfoPanel (removeLibraryItem (lib_url chair) showroom) = None.
Proof.
  apply (InfoPanel_closes_on_asset_removal showroom
           (mkSceneItem "item-1" (lib_name chair) (lib_url chair) (0, 1, 0) (0, 0, 0)
              (1, 1, 1))).
  - apply NoDup_singleton.
  - reflexivity.
Defined.

(** A [.glb] file under a name that the library lacks passes the guard. *)
Lemma handleFileChange_accepts (lib : list LibraryItem) (f : File) :
  JS.endsWith (file_name f) ".glb" = true →
  file_name f ∉ lib_name <$> lib →
  handleFileChange lib (Some f) =
    ReadThenAdd (mkLibraryItem (file_name f) (file_dataURL f)).
Proof.
  intros Hglb Hnew. unfold handleFileChange. rewrite Hglb.
  destruct (existsb _ _) eqn:Hdup; [|done].
  apply isDuplicate_spec in Hdup. done.
Qed.

(** X9. [handleFileChange] starts a read exactly for a file whose name ends
    with [.glb] and is not yet a name of the library, and the asset that the
    read will add carries the file's name and its data URL. *)
Theorem handleFileChange_accepts_iff
    (lib : list LibraryItem) (file : option File) (newItem : LibraryItem) :
  handleFileChange lib file = ReadThenAdd newItem ↔
  ∃ f, file = Some f ∧ JS.endsWith (file_name f) ".glb" = true ∧
       (file_name f ∉ lib_name <$> lib) ∧
       newItem = mkLibraryItem (file_name f) (file_dataURL f).
Proof.
  unfold handleFileChange. split.
  - destruct file as [f|]; [|done].
    destruct (JS.endsWith _ _) eqn:Hglb; [|done].
    destruct (existsb _ _) eqn:Hdup; [done|].
    intros [= <-]. exists f. split; [done|]. split; [done|]. split; [|done].
    intros Hin%isDuplicate_spec. congruence.
  - intros (f & -> & Hglb & Hnew & ->). by apply handleFileChange_accepts.
Qed.

(** X10. The duplicate check reads the library that the handler sees when
    the file is picked, and the asset is added when the read completes. Two
    uploads of one new [.glb] name that are both checked before either read
    completes are both added, and the library then holds the name twice. *)
Theorem concurrent_uploads_duplicate (s : State) (f g : File) :
  JS.endsWith (file_name f) ".glb" = true →
  file_name g = file_name f →
  file_name f ∉ libraryNames s →
  ¬ NoDup (libraryNames
             (settle (handleFileChange (library s) (Some g))
                (settle (handleFileChange (library s) (Some f)) s))).
Proof.
  intros Hglb Hname Hnew.
  assert (∀ h, file_name h = file_name f →
            handleFileChange (library s) (Some h) =
              ReadThenAdd (mkLibraryItem (file_name h) (file_dataURL h))) as Haccept.
  { intros h Hh. apply handleFileChange_accepts; by rewrite Hh. }
  rewrite (Haccept f eq_refl), (Haccept g Hname).
  unfold libraryNames. cbn. rewrite !fmap_app. cbn. rewrite Hname, <-(assoc_L (++)).
  intros Hnodup. apply NoDup_app in Hnodup as (_ & _ & Hdup).
  apply NoDup_cons in Hdup as [Hdup _]. apply Hdup, list_elem_of_here.
Qed.

(** Two uploads of ["stool.glb"] checked against the library of [oneChair]. *)
Lemma concurrent_uploads_duplicate_witness :
  ¬ NoDup (libraryNames
             (settle (handleFileChange (library oneChair)
                        (Some (mkFile "stool.glb" "data:,b")))
                (settle (handleFileChange (library oneChair)
                           (Some (mkFile "stool.glb" "data:,a"))) oneChair))).
Proof.
  apply (concurrent_uploads_duplicate oneChair
           (mkFile "stool.glb" "data:,a") (mkFile "stool.glb" "data:,b")).
  - reflexivity.
  - reflexivity.
  - unfold libraryNames. cbn. intros Hin.
    apply list_elem_of_singleton in Hin. discriminate Hin.
Defined.

(** ** Further properties of the lighting components and the brightness effect *)


Lemma traverse_furniture (brightness : float) (scene : list Object3D)
    (materials : list Material) :
  traverse false brightness scene materials = (furnitureNode <$> scene, materials).
Proof.
  induction scene as [|child scene IH]; [done|].
  cbn [traverse]. unfold visitChild, furnitureNode.
  destruct child as [[] ? ? ?]; cbn; by rewrite IH.
Qed.

Lemma adjustMaterial_after_history (b : float) (history : list float) (m : Material) :
  adjustMaterial b (foldl (λ m b', adjustMaterial b' m) m history) = adjustMaterial b m.
Proof.
  revert m. induction history as [|b' history IH]; intros m; [done|].
  cbn [foldl]. by rewrite IH, adjustMaterial_absorb.
Qed.


(** X12. The rig does not depend on [minY] or [centerY]: the ceiling height
    is [maxY * 0.9] whatever the floor height, and two bounds that differ only
    in [minY] and [centerY] resolve to the same rig for every preset. *)
Theorem rig_ignores_minY_centerY
    (preset : string) (b : RoomBounds) (minY' centerY' : float) :
  getRoomLightingConfig preset (Some (withVertical b minY' centerY')) =
    getRoomLightingConfig preset (Some b).
Proof. reflexivity. Qed.

(** X13. For every preset identifier, the colors, intensities, decay and
    shadow flags of a rig, and the number of its point lights, are the same
    for all bounds: the bounds decide positions and falloff distances only. *)
Theorem rig_style_independent_of_bounds (preset : string) (b1 b2 : RoomBounds) :
  rigStyle (getRoomLightingConfig preset (Some b1)) =
    rigStyle (getRoomLightingConfig preset (Some b2)).
Proof.
  destruct (decide (preset ∈ room_preset_ids)) as [Hin|Hout].
  - unfold room_preset_ids in Hin.
    repeat (apply elem_of_cons in Hin as [->|Hin]);
      try (by apply elem_of_nil in Hin); reflexivity.
  - unfold getRoomLightingConfig, JS.get. by rewrite !room_configs_unknown.
Qed.

(** X14. Every rig that the resolver returns has five point lights, except
    the rig of ['cozy-night'], which has three; every point light casts
    shadows, and the hemisphere light sits at [(0, maxY * 0.9, 0)], not above
    the center of the room. *)
Theorem rig_shape (preset : string) (b : RoomBounds) :
  match getRoomLightingConfig preset (Some b) with
  | JS.object config =>
      length (pointLights config) =
        (if String.eqb preset "cozy-night" then 3 else 5)%nat ∧
      Forall (λ l, pl_castShadow l = true) (pointLights config) ∧
      hemi_position (hemisphereLight config) = (0, maxY b * 0.9, 0)
  | _ => True
  end.
Proof.
  destruct (decide (preset ∈ room_preset_ids)) as [Hin|Hout].
  - unfold room_preset_ids in Hin.
    repeat (apply elem_of_cons in Hin as [->|Hin]);
      try (by apply elem_of_nil in Hin); cbn; try done;
      (split; [reflexivity|]); (split; [|reflexivity]);
      repeat apply Forall_cons_2; try apply Forall_nil_2; reflexivity.
  - unfold getRoomLightingConfig, JS.get. rewrite room_configs_unknown by done.
    by destruct (bool_decide _).
Qed.

(** X15. Outside the property names of [Object.prototype], [FurnitureLights]
    always renders exactly an ambient and a directional light, and it renders
    an identifier that is not in the table like ['default']. *)
Theorem FurnitureLights_renders (preset : string) (intensityMultiplier : float) :
  preset ∉ JS.Object_prototype →
  FurnitureLights preset intensityMultiplier =
    FurnitureLights
      (if bool_decide (preset ∈ furniture_preset_ids) then preset else "default")
      intensityMultiplier ∧
  ∃ aColor aIntensity dColor dPosition dIntensity dShadow dMapSize,
    FurnitureLights preset intensityMultiplier =
      renderFragment
        [ ambientLightElement aColor aIntensity;
          directionalLightElement dColor dPosition dIntensity dShadow dMapSize ].
Proof.
  intros Hproto. destruct (decide (preset ∈ furniture_preset_ids)) as [Hin|Hout].
  - rewrite bool_decide_eq_true_2 by done. split; [done|].
    unfold furniture_preset_ids in Hin.
    repeat (apply elem_of_cons in Hin as [->|Hin]);
      try (by apply elem_of_nil in Hin); do 7 eexists; reflexivity.
  - rewrite bool_decide_eq_false_2 by done.
    unfold FurnitureLights at 1 3.
    rewrite getFurnitureLightingConfig_unknown by done.
    split; [reflexivity|]. do 7 eexists; reflexivity.
Qed.

(** The furniture lights for an identifier that no table defines. *)
Lemma FurnitureLights_renders_witness :
  FurnitureLights "moonlight" 2 =
    FurnitureLights
      (if bool_decide ("moonlight" ∈ furniture_preset_ids) then "moonlight" else "default")
      2 ∧
  ∃ aColor aIntensity dColor dPosition dIntensity dShadow dMapSize,
    FurnitureLights "moonlight" 2 =
      renderFragment
        [ ambientLightElement aColor aIntensity;
          directionalLightElement dColor dPosition dIntensity dShadow dMapSize ].
Proof.
  apply (FurnitureLights_renders "moonlight" 2).
  apply (bool_decide_unpack _). reflexivity.
Defined.

(** X16. One pass of the room effect adjusts every material that some mesh
    references exactly once, however many meshes share it, and leaves every
    other material of the store as it is; the store keeps its size and the
    nodes get the room's shadow flags. *)
Theorem room_traversal_adjusts_once
    (brightness : float) (scene : list Object3D) (materials : list Material) (i : nat) :
  (traverse true brightness scene materials).2 !! i =
    (if decide (i ∈ meshMaterials scene)
     then adjustMaterial brightness <$> materials !! i
     else materials !! i) ∧
  length (traverse true brightness scene materials).2 = length materials ∧
  (traverse true brightness scene materials).1 = roomNode <$> scene.
Proof.
  rewrite traverse_room. cbn [fst snd]. split; [|split; [|done]].
  - apply foldl_alter_lookup. intros m. apply adjustMaterial_absorb.
  - generalize (meshMaterials scene). intros refs. revert materials.
    induction refs as [|ref refs IH]; intros materials; [done|].
    cbn [foldl]. by rewrite IH, length_alter.
Qed.

(** X17. The effect on a model that is not the room never touches a material,
    whatever the brightness: it only makes every mesh cast and receive
    shadows. Room or not, a traversal keeps the nodes' mesh flags and material
    references. *)
Theorem furniture_traversal_keeps_materials
    (room : bool) (brightness : float) (scene : list Object3D) (materials : list Material) :
  (traverse false brightness scene materials).2 = materials ∧
  (traverse false brightness scene materials).1 = furnitureNode <$> scene ∧
  isMesh <$> (traverse room brightness scene materials).1 = isMesh <$> scene ∧
  material <$> (traverse room brightness scene materials).1 = material <$> scene.
Proof.
  rewrite traverse_furniture. split; [done|]. split; [done|].
  destruct room; [rewrite traverse_room | rewrite traverse_furniture]; cbn [fst];
    rewrite <-!list_fmap_compose; split; apply list_fmap_ext; intros ? child _;
    unfold roomNode, furnitureNode; by destruct child as [[] ? ? ?].
Qed.

(** X18. After any history of brightness values, the material is what the
    last value alone gives from the original material: no value of the
    history leaves a trace. *)
Theorem brightness_history_forgotten
    (history : list float) (brightness : float) (m : Material) :
  foldl (λ m b, adjustMaterial b m) m (history ++ [brightness]) =
    adjustMaterial brightness m.
Proof. rewrite foldl_app. cbn [foldl]. apply adjustMaterial_after_history. Qed.
